(** * hamilton/auth: authorizer selection and endpoint derivation

    A shallow embedding of [auth/auth.go].  Go strings are byte strings
    ([string]); Go's [int]-based enumerations [TokenVersion] and [Api] are
    integers ([Z]) with their named constants; a Go [error] is its message
    ([option string], [None] being [nil]); a Go pair of results
    [(Authorizer, error)] is a pair of options.  Calls that leave the file
    (file read, PKCS#12 decoding, token-source construction, the Azure CLI
    probe) are recorded in a call trace, so that "this branch was not
    evaluated" is a statement about the trace. *)

From Stdlib Require Import String Ascii List ZArith Bool Lia.
Import ListNotations.
Local Open Scope string_scope.

(** ** Strings *)

(** The double-quote character, used by the [%q] verb. *)
Definition dquote : string := String (ascii_of_nat 34) EmptyString.

Fixpoint rev_string (s : string) (acc : string) : string :=
  match s with
  | EmptyString => acc
  | String c r => rev_string r (String c acc)
  end.

Definition nonempty (s : string) : bool :=
  match s with EmptyString => false | String _ _ => true end.

(** [contains s sub]: [strings.Contains], used to state what a message
    mentions. *)
Fixpoint contains (s sub : string) : bool :=
  if prefix sub s then true
  else match s with
       | EmptyString => false
       | String _ r => contains r sub
       end.

(** *** [strings.TrimSpace]

    The Go standard library removes leading and trailing Unicode white
    space: the ASCII characters tab, line feed, vertical tab, form feed,
    carriage return and space, and the runes U+0085, U+00A0, U+1680,
    U+2000..U+200A, U+2028, U+2029, U+202F, U+205F and U+3000, here in
    their UTF-8 encodings. *)

Definition asciiSpace (c : ascii) : bool :=
  let n := nat_of_ascii c in
  ((9 <=? n) && (n <=? 13) || (n =? 32))%nat.

(** Two-byte white space: C2 85 and C2 A0. *)
Definition space2 (c1 c2 : ascii) : bool :=
  let a := nat_of_ascii c1 in
  let b := nat_of_ascii c2 in
  ((a =? 194) && ((b =? 133) || (b =? 160)))%nat.

(** Three-byte white space: E1 9A 80, E2 80 80..8A, E2 80 A8, E2 80 A9,
    E2 80 AF, E2 81 9F and E3 80 80. *)
Definition space3 (c1 c2 c3 : ascii) : bool :=
  let a := nat_of_ascii c1 in
  let b := nat_of_ascii c2 in
  let c := nat_of_ascii c3 in
  ((a =? 225) && (b =? 154) && (c =? 128)
   || (a =? 226) && (b =? 128)
      && ((128 <=? c) && (c <=? 138) || (c =? 168) || (c =? 169) || (c =? 175))
   || (a =? 226) && (b =? 129) && (c =? 159)
   || (a =? 227) && (b =? 128) && (c =? 128))%nat.

Fixpoint trimLeft (s : string) : string :=
  match s with
  | EmptyString => s
  | String c1 r1 =>
      if asciiSpace c1 then trimLeft r1
      else match r1 with
           | EmptyString => s
           | String c2 r2 =>
               if space2 c1 c2 then trimLeft r2
               else match r2 with
                    | EmptyString => s
                    | String c3 r3 =>
                        if space3 c1 c2 c3 then trimLeft r3 else s
                    end
           end
  end.

(** The same scan over the reversed string: the bytes of a rune arrive
    last byte first. *)
Fixpoint trimLeftRev (s : string) : string :=
  match s with
  | EmptyString => s
  | String c1 r1 =>
      if asciiSpace c1 then trimLeftRev r1
      else match r1 with
           | EmptyString => s
           | String c2 r2 =>
               if space2 c2 c1 then trimLeftRev r2
               else match r2 with
                    | EmptyString => s
                    | String c3 r3 =>
                        if space3 c3 c2 c1 then trimLeftRev r3 else s
                    end
           end
  end.

Definition trimRight (s : string) : string :=
  rev_string (trimLeftRev (rev_string s "")) "".

Definition TrimSpace (s : string) : string := trimRight (trimLeft s).

(** Blank in the sense of the selection guards:
    [strings.TrimSpace(s) == ""]. *)
Definition blank (s : string) : bool := negb (nonempty (TrimSpace s)).

(** ** Data model *)

(** [type TokenVersion int], constants by [iota]. *)
Definition TokenVersion := Z.
Definition TokenVersion2 : TokenVersion := 0%Z.
Definition TokenVersion1 : TokenVersion := 1%Z.

(** [type Api int], constants by [iota]. *)
Definition Api := Z.
Definition MsGraph : Api := 0%Z.
Definition AadGraph : Api := 1%Z.

Module environments.

(** Modelled from the spec: the [environments] package is not under src/.
    The registry "maps a named cloud to per-API base endpoints and the AD
    authentication base URL"; auth.go reads [AzureADEndpoint],
    [MsGraph.Endpoint] and [AadGraph.Endpoint]. *)
Record ApiEndpoint := { Endpoint : string }.

Record Environment := {
  AzureADEndpoint : string;
  MsGraph : ApiEndpoint;
  AadGraph : ApiEndpoint
}.

End environments.

Record Config := {
  Environment : environments.Environment;
  Version : TokenVersion;
  TenantID : string;
  ClientID : string;
  EnableAzureCliToken : bool;
  EnableMsiAuth : bool;
  MsiEndpoint : string;
  EnableClientCertAuth : bool;
  ClientCertPath : string;
  ClientCertPassword : string;
  EnableClientSecretAuth : bool;
  ClientSecret : string
}.

(** ** Endpoint, scope and resource derivation *)

Definition endpoint (endpoint : string) (tenant : string)
    (version : TokenVersion) : string :=
  let tenant := if String.eqb tenant "" then "common" else tenant in
  let e := endpoint ++ "/" ++ tenant ++ "/oauth2" in
  let e := if Z.eqb version TokenVersion2 then e ++ "/" ++ "v2.0" else e in
  e ++ "/token".

(** A [switch] without default: an unlisted [api] leaves the named result
    at its zero value ([nil] slice). *)
Definition scopes (env : environments.Environment) (api : Api) : list string :=
  if Z.eqb api MsGraph then
    [environments.Endpoint (environments.MsGraph env) ++ "/.default"]
  else if Z.eqb api AadGraph then
    [environments.Endpoint (environments.AadGraph env) ++ "/.default"]
  else [].

Definition resource (env : environments.Environment) (api : Api) : string :=
  if Z.eqb api MsGraph then
    environments.Endpoint (environments.MsGraph env) ++ "/"
  else if Z.eqb api AadGraph then
    environments.Endpoint (environments.AadGraph env) ++ "/"
  else "".

(** ** Collaborators outside auth.go *)

Inductive result (A : Type) : Type :=
| Ok (a : A)
| Err (msg : string).
Arguments Ok {A} a.
Arguments Err {A} msg.

(** A Go [error] value: [None] is [nil], [Some msg] carries [err.Error()]. *)
Definition error := option string.

Module rsa.
Record PrivateKey := { N : Z; E : Z; D : Z; Primes : list Z }.
End rsa.

Module x509.
Record Certificate := { Raw : string }.
End x509.

(** The dynamic type of the [interface{}] key that [pkcs12.Decode] hands
    back; the type assertion to an RSA private key succeeds on the first
    constructor only. *)
Inductive PrivateKey :=
| RsaPrivateKey (k : rsa.PrivateKey)
| EcdsaPrivateKey (d : Z)
| Ed25519PrivateKey (seed : string).

Module microsoft.

Inductive AuthType := AuthTypeAssertion | AuthTypeSecret.

(** Modelled from the spec: [auth/internal/microsoft] is not under src/.
    The fields are the ones auth.go assigns; a field that a struct literal
    leaves out keeps its zero value (the empty string, the [nil] slice). *)
Record Config := {
  ClientID : string;
  ClientSecret : string;
  PrivateKey : string;
  Certificate : string;
  Scopes : list string;
  TokenURL : string;
  Resource : string
}.

Definition setResource (conf : Config) (r : string) : Config :=
  {| ClientID := ClientID conf;
     ClientSecret := ClientSecret conf;
     PrivateKey := PrivateKey conf;
     Certificate := Certificate conf;
     Scopes := Scopes conf;
     TokenURL := TokenURL conf;
     Resource := r |}.

End microsoft.

(** Modelled from the spec: [AzureCliConfig] (auth/azcli.go) is not under
    src/.  The CLI adapter's "only responsibility is selecting the correct
    scope/tenant", so the configuration carries the API and the tenant. *)
Record AzureCliConfig := { CliApi : Api; CliTenantID : string }.

(** Modelled from the spec: the adapters behind the [Authorizer] interface
    are not under src/; "a Token Source Adapter is constructed and returned
    as an opaque Authorizer", one adapter per method, determined by the
    configuration it is built from. *)
Inductive TokenSource :=
| ClientCredentialsSource (conf : microsoft.Config)
                          (authType : microsoft.AuthType)
| AzureCliSource (conf : AzureCliConfig).

(** A Go interface value: [None] is [nil]. *)
Definition Authorizer := option TokenSource.

(** The outside world as one call of [NewAuthorizer] sees it: the file
    system, the PKCS#12 decoder, the PKCS#1 encoder, [strconv.Quote] behind
    the [%q] verb, and the Azure CLI probe of [NewAzureCliConfig]. *)
Record Externals := {
  ReadFile : string -> result string;
  pkcs12_Decode : string -> string -> result (PrivateKey * x509.Certificate);
  MarshalPKCS1PrivateKey : rsa.PrivateKey -> string;
  Quote : string -> string;
  NewAzureCliConfig : Api -> string -> result AzureCliConfig
}.

(** ** Calls and their trace *)

Inductive Event :=
| CallReadFile (path : string)
| CallPkcs12Decode (pfx : string)
| CallTokenSource (authType : microsoft.AuthType)
| CallNewAzureCliConfig (api : Api) (tenantId : string)
| CallCliTokenSource.

Definition Call (A : Type) : Type := (A * list Event)%type.

Definition ret {A} (a : A) : Call A := (a, []).

Definition bind {A B} (m : Call A) (k : A -> Call B) : Call B :=
  let (b, t) := k (fst m) in (b, (snd m ++ t)%list).

Definition emit {A} (e : Event) (a : A) : Call A := (a, [e]).

Declare Scope call_scope.
Delimit Scope call_scope with call.
Notation "x <- m ;; k" := (bind m (fun x => k))
  (at level 61, m at next level, right associativity) : call_scope.
Notation "' p <- m ;; k" := (bind m (fun x => let p := x in k))
  (at level 61, p pattern, m at next level, right associativity) : call_scope.
Local Open Scope call_scope.

Definition value {A} (m : Call A) : A := fst m.
Definition trace {A} (m : Call A) : list Event := snd m.

(** ** The constructors and the selector *)

Section Auth.

Variable X : Externals.

(** Modelled from the spec: [conf.TokenSource(ctx, authType)] of the
    [microsoft] package is not under src/; it builds the certificate or
    secret adapter from the configuration and never yields [nil]. *)
Definition microsoft_TokenSource (conf : microsoft.Config)
    (authType : microsoft.AuthType) : Call Authorizer :=
  emit (CallTokenSource authType)
       (Some (ClientCredentialsSource conf authType)).

(** Modelled from the spec: [conf.TokenSource(ctx)] of [AzureCliConfig] is
    not under src/; it builds the CLI adapter and never yields [nil]. *)
Definition azcli_TokenSource (conf : AzureCliConfig) : Call Authorizer :=
  emit CallCliTokenSource (Some (AzureCliSource conf)).

Definition NewAzureCliAuthorizer (api : Api) (tenantId : string)
    : Call (Authorizer * error) :=
  r <- emit (CallNewAzureCliConfig api tenantId)
            (NewAzureCliConfig X api tenantId) ;;
  match r with
  | Err err => ret (None, Some err)
  | Ok conf => a <- azcli_TokenSource conf ;; ret (a, None)
  end.

Definition NewClientCertificateAuthorizer
    (environment : environments.Environment) (api : Api)
    (tokenVersion : TokenVersion)
    (tenantId clientId pfxPath pfxPass : string)
    : Call (Authorizer * error) :=
  r <- emit (CallReadFile pfxPath) (ReadFile X pfxPath) ;;
  match r with
  | Err err =>
      ret (None, Some ("could not read pkcs12 store at " ++ Quote X pfxPath
                       ++ ": " ++ err))
  | Ok pfx =>
      d <- emit (CallPkcs12Decode pfx) (pkcs12_Decode X pfx pfxPass) ;;
      match d with
      | Err err =>
          ret (None, Some ("could not decode pkcs12 credential store: "
                           ++ err))
      | Ok (RsaPrivateKey priv, cert) =>
          let conf :=
            {| microsoft.ClientID := clientId;
               microsoft.ClientSecret := "";
               microsoft.PrivateKey := MarshalPKCS1PrivateKey X priv;
               microsoft.Certificate := x509.Raw cert;
               microsoft.Scopes := scopes environment api;
               microsoft.TokenURL :=
                 endpoint (environments.AzureADEndpoint environment)
                          tenantId tokenVersion;
               microsoft.Resource := "" |} in
          let conf :=
            if Z.eqb tokenVersion TokenVersion1
            then microsoft.setResource conf (resource environment api)
            else conf in
          a <- microsoft_TokenSource conf microsoft.AuthTypeAssertion ;;
          ret (a, None)
      | Ok (_, _) =>
          ret (None, Some ("unsupported non-rsa key was found in pkcs12 store "
                           ++ Quote X pfxPath))
      end
  end.

Definition NewClientSecretAuthorizer
    (environment : environments.Environment) (api : Api)
    (tokenVersion : TokenVersion)
    (tenantId clientId clientSecret : string)
    : Call (Authorizer * error) :=
  let conf :=
    {| microsoft.ClientID := clientId;
       microsoft.ClientSecret := clientSecret;
       microsoft.PrivateKey := "";
       microsoft.Certificate := "";
       microsoft.Scopes := scopes environment api;
       microsoft.TokenURL :=
         endpoint (environments.AzureADEndpoint environment)
                  tenantId tokenVersion;
       microsoft.Resource := "" |} in
  let conf :=
    if Z.eqb tokenVersion TokenVersion1
    then microsoft.setResource conf (resource environment api)
    else conf in
  a <- microsoft_TokenSource conf microsoft.AuthTypeSecret ;;
  ret (a, None).

(** One block of [NewAuthorizer]:
<<
    if guard {
        a, err := construct
        if err != nil { return nil, fmt.Errorf(prefix + "%s", err) }
        if a != nil { return a, nil }
    }
    rest
>>
    [construct] contributes its calls only when the guard holds, [rest]
    only when the block falls through. *)
Definition attempt (guard : bool) (construct : Call (Authorizer * error))
    (prefix : string) (rest : Call (Authorizer * error))
    : Call (Authorizer * error) :=
  if guard then
    r <- construct ;;
    match r with
    | (_, Some err) => ret (None, Some (prefix ++ err))
    | (Some a, None) => ret (Some a, None)
    | (None, None) => rest
    end
  else rest.

Definition certSpecified (c : Config) : bool :=
  EnableClientCertAuth c
  && nonempty (TrimSpace (TenantID c))
  && nonempty (TrimSpace (ClientID c))
  && nonempty (TrimSpace (ClientCertPath c)).

Definition secretSpecified (c : Config) : bool :=
  EnableClientSecretAuth c
  && nonempty (TrimSpace (TenantID c))
  && nonempty (TrimSpace (ClientID c))
  && nonempty (TrimSpace (ClientSecret c)).

(** The body of [NewAuthorizer] from the Azure CLI block on. *)
Definition fromAzureCli (c : Config) (api : Api) : Call (Authorizer * error) :=
  attempt (EnableAzureCliToken c)
    (NewAzureCliAuthorizer api (TenantID c))
    "could not configure AzureCli Authorizer: "
  (ret (None,
        Some "no Authorizer could be configured, please check your configuration")).

(** The body of [NewAuthorizer] from the client-secret block on. *)
Definition fromClientSecret (c : Config) (api : Api)
    : Call (Authorizer * error) :=
  attempt (secretSpecified c)
    (NewClientSecretAuthorizer (Environment c) api (Version c)
       (TenantID c) (ClientID c) (ClientSecret c))
    "could not configure ClientCertificate Authorizer: "
  (fromAzureCli c api).

Definition NewAuthorizer (c : Config) (api : Api) : Call (Authorizer * error) :=
  attempt (certSpecified c)
    (NewClientCertificateAuthorizer (Environment c) api (Version c)
       (TenantID c) (ClientID c) (ClientCertPath c) (ClientCertPassword c))
    "could not configure ClientCertificate Authorizer: "
  (fromClientSecret c api).

End Auth.

(** ** Vocabulary of the properties *)

Inductive Method := Certificate | Secret | AzureCli.

(** The authentication method on whose behalf a call is made. *)
Definition eventMethod (e : Event) : Method :=
  match e with
  | CallReadFile _ => Certificate
  | CallPkcs12Decode _ => Certificate
  | CallTokenSource microsoft.AuthTypeAssertion => Certificate
  | CallTokenSource microsoft.AuthTypeSecret => Secret
  | CallNewAzureCliConfig _ _ => AzureCli
  | CallCliTokenSource => AzureCli
  end.

Definition isCertificateEvent (e : Event) : bool :=
  match eventMethod e with Certificate => true | _ => false end.

(** The API base endpoint that [scopes] and [resource] read for a
    recognized target. *)
Definition apiEndpoint (env : environments.Environment) (api : Api) : string :=
  if Z.eqb api MsGraph
  then environments.Endpoint (environments.MsGraph env)
  else environments.Endpoint (environments.AadGraph env).

(** The path segments that follow the tenant in a token URL. *)
Definition tokenPath (version : TokenVersion) : string :=
  if Z.eqb version TokenVersion2 then "/oauth2/v2.0/token" else "/oauth2/token".

(** Two configurations that agree on every field but [EnableMsiAuth] and
    [MsiEndpoint]. *)
Definition sameExceptMsi (c c' : Config) : Prop :=
  Environment c = Environment c' /\
  Version c = Version c' /\
  TenantID c = TenantID c' /\
  ClientID c = ClientID c' /\
  EnableAzureCliToken c = EnableAzureCliToken c' /\
  EnableClientCertAuth c = EnableClientCertAuth c' /\
  ClientCertPath c = ClientCertPath c' /\
  ClientCertPassword c = ClientCertPassword c' /\
  EnableClientSecretAuth c = EnableClientSecretAuth c' /\
  ClientSecret c = ClientSecret c'.

(** A result in which exactly one of the two components is [nil]. *)
Definition exclusive (r : Authorizer * error) : bool :=
  match r with
  | (Some _, None) => true
  | (None, Some _) => true
  | _ => false
  end.

(** ** A concrete world for the examples *)

Module Demo.

Definition env : environments.Environment :=
  {| environments.AzureADEndpoint := "https://login.example/adtenant";
     environments.MsGraph := {| environments.Endpoint := "https://graph.example" |};
     environments.AadGraph := {| environments.Endpoint := "https://aad.example" |} |}.

Definition rsaKey : rsa.PrivateKey :=
  {| rsa.N := 3233; rsa.E := 17; rsa.D := 2753; rsa.Primes := [61; 53]%Z |}.

Definition cert : x509.Certificate := {| x509.Raw := "0-cert-der" |}.

(** Two bundles on disk, one with an RSA key and one with an ECDSA key,
    both locked with the password "hunter2". *)
Definition world : Externals :=
  {| ReadFile := fun path =>
       if String.eqb path "/etc/hamilton/client.pfx" then Ok "pfx-rsa"
       else if String.eqb path "/etc/hamilton/ec.pfx" then Ok "pfx-ec"
       else Err ("open " ++ path ++ ": no such file or directory");
     pkcs12_Decode := fun pfx pass =>
       if negb (String.eqb pass "hunter2")
       then Err "pkcs12: decryption password incorrect"
       else if String.eqb pfx "pfx-rsa" then Ok (RsaPrivateKey rsaKey, cert)
       else if String.eqb pfx "pfx-ec" then Ok (EcdsaPrivateKey 7, cert)
       else Err "pkcs12: error reading P12 data";
     MarshalPKCS1PrivateKey := fun k => String "0" "-pkcs1-der";
     Quote := fun s => dquote ++ s ++ dquote;
     NewAzureCliConfig := fun api tenantId =>
       Ok {| CliApi := api; CliTenantID := tenantId |} |}.

(** Every method enabled and fully specified. *)
Definition config : Config :=
  {| Environment := env;
     Version := TokenVersion2;
     TenantID := "t";
     ClientID := "c";
     EnableAzureCliToken := true;
     EnableMsiAuth := false;
     MsiEndpoint := "";
     EnableClientCertAuth := true;
     ClientCertPath := "/etc/hamilton/client.pfx";
     ClientCertPassword := "hunter2";
     EnableClientSecretAuth := true;
     ClientSecret := "s" |}.

Definition withCert (path pass : string) (c : Config) : Config :=
  {| Environment := Environment c;
     Version := Version c;
     TenantID := TenantID c;
     ClientID := ClientID c;
     EnableAzureCliToken := EnableAzureCliToken c;
     EnableMsiAuth := EnableMsiAuth c;
     MsiEndpoint := MsiEndpoint c;
     EnableClientCertAuth := EnableClientCertAuth c;
     ClientCertPath := path;
     ClientCertPassword := pass;
     EnableClientSecretAuth := EnableClientSecretAuth c;
     ClientSecret := ClientSecret c |}.

Definition withMsi (enable : bool) (msiEndpoint : string) (c : Config) : Config :=
  {| Environment := Environment c;
     Version := Version c;
     TenantID := TenantID c;
     ClientID := ClientID c;
     EnableAzureCliToken := EnableAzureCliToken c;
     EnableMsiAuth := enable;
     MsiEndpoint := msiEndpoint;
     EnableClientCertAuth := EnableClientCertAuth c;
     ClientCertPath := ClientCertPath c;
     ClientCertPassword := ClientCertPassword c;
     EnableClientSecretAuth := EnableClientSecretAuth c;
     ClientSecret := ClientSecret c |}.

Definition withMethods (cert secret cli : bool) (c : Config) : Config :=
  {| Environment := Environment c;
     Version := Version c;
     TenantID := TenantID c;
     ClientID := ClientID c;
     EnableAzureCliToken := cli;
     EnableMsiAuth := EnableMsiAuth c;
     MsiEndpoint := MsiEndpoint c;
     EnableClientCertAuth := cert;
     ClientCertPath := ClientCertPath c;
     ClientCertPassword := ClientCertPassword c;
     EnableClientSecretAuth := secret;
     ClientSecret := ClientSecret c |}.

Definition withTenant (tenant : string) (c : Config) : Config :=
  {| Environment := Environment c;
     Version := Version c;
     TenantID := tenant;
     ClientID := ClientID c;
     EnableAzureCliToken := EnableAzureCliToken c;
     EnableMsiAuth := EnableMsiAuth c;
     MsiEndpoint := MsiEndpoint c;
     EnableClientCertAuth := EnableClientCertAuth c;
     ClientCertPath := ClientCertPath c;
     ClientCertPassword := ClientCertPassword c;
     EnableClientSecretAuth := EnableClientSecretAuth c;
     ClientSecret := ClientSecret c |}.

End Demo.

(** ** Further vocabulary and cases *)

(** The tenant segment of a token URL: [endpoint] replaces the empty
    tenant by "common". *)
Definition tenantSegment (tenant : string) : string :=
  if String.eqb tenant "" then "common" else tenant.

(** The three wrappers of [NewAuthorizer] and its final error. *)
Definition certificatePrefix : string :=
  "could not configure ClientCertificate Authorizer: ".
Definition azureCliPrefix : string :=
  "could not configure AzureCli Authorizer: ".
Definition noAuthorizerMessage : string :=
  "no Authorizer could be configured, please check your configuration".

Module Cases.

(** The world of [Demo] on a machine where the Azure CLI has no session. *)
Definition noCliSession : Externals :=
  {| ReadFile := ReadFile Demo.world;
     pkcs12_Decode := pkcs12_Decode Demo.world;
     MarshalPKCS1PrivateKey := MarshalPKCS1PrivateKey Demo.world;
     Quote := Quote Demo.world;
     NewAzureCliConfig := fun _ _ =>
       Err "please run az login to setup account" |}.

Definition chinaEnv : environments.Environment :=
  {| environments.AzureADEndpoint := "https://login.example.cn";
     environments.MsGraph := {| environments.Endpoint := "https://graph.example.cn" |};
     environments.AadGraph := {| environments.Endpoint := "https://aad.example.cn" |} |}.

Definition withTarget (env : environments.Environment) (version : TokenVersion)
    (c : Config) : Config :=
  {| Environment := env;
     Version := version;
     TenantID := TenantID c;
     ClientID := ClientID c;
     EnableAzureCliToken := EnableAzureCliToken c;
     EnableMsiAuth := EnableMsiAuth c;
     MsiEndpoint := MsiEndpoint c;
     EnableClientCertAuth := EnableClientCertAuth c;
     ClientCertPath := ClientCertPath c;
     ClientCertPassword := ClientCertPassword c;
     EnableClientSecretAuth := EnableClientSecretAuth c;
     ClientSecret := ClientSecret c |}.

Definition withClient (clientId : string) (c : Config) : Config :=
  {| Environment := Environment c;
     Version := Version c;
     TenantID := TenantID c;
     ClientID := clientId;
     EnableAzureCliToken := EnableAzureCliToken c;
     EnableMsiAuth := EnableMsiAuth c;
     MsiEndpoint := MsiEndpoint c;
     EnableClientCertAuth := EnableClientCertAuth c;
     ClientCertPath := ClientCertPath c;
     ClientCertPassword := ClientCertPassword c;
     EnableClientSecretAuth := EnableClientSecretAuth c;
     ClientSecret := ClientSecret c |}.

(** Secret and CLI enabled, certificate authentication off. *)
Definition secretConfig : Config := Demo.withMethods false true true Demo.config.

(** Only the CLI enabled. *)
Definition cliConfig : Config := Demo.withMethods false false true Demo.config.

End Cases.

(** * Properties *)

Example endpoint_v2_common :
  endpoint "https://login.example/adtenant" "" TokenVersion2
  = "https://login.example/adtenant/common/oauth2/v2.0/token".
Proof. reflexivity. Qed.

Example TrimSpace_ascii :
  TrimSpace (String (ascii_of_nat 9) " a b  ") = "a b".
Proof. reflexivity. Qed.

(** U+2028 in front and U+00A0 behind are white space too. *)
Example TrimSpace_unicode :
  TrimSpace (String (ascii_of_nat 226) (String (ascii_of_nat 128)
               (String (ascii_of_nat 168)
                  ("x y" ++ String (ascii_of_nat 194)
                              (String (ascii_of_nat 160) "")))))
  = "x y".
Proof. reflexivity. Qed.

(** A lone continuation byte is not white space. *)
Example TrimSpace_invalid_utf8 :
  TrimSpace (String (ascii_of_nat 133) " ") = String (ascii_of_nat 133) "".
Proof. reflexivity. Qed.

(** The end-to-end example of the specification: secret authentication
    against the primary graph with version 2 tokens. *)
Example secret_end_to_end :
  value (NewAuthorizer Demo.world
           (Demo.withMethods false true false Demo.config) MsGraph)
  = (Some (ClientCredentialsSource
             {| microsoft.ClientID := "c";
                microsoft.ClientSecret := "s";
                microsoft.PrivateKey := "";
                microsoft.Certificate := "";
                microsoft.Scopes := ["https://graph.example/.default"];
                microsoft.TokenURL :=
                  "https://login.example/adtenant/t/oauth2/v2.0/token";
                microsoft.Resource := "" |}
             microsoft.AuthTypeSecret),
     None).
Proof. reflexivity. Qed.

(** ** Strings *)

Lemma append_assoc (a b c : string) : (a ++ b) ++ c = a ++ (b ++ c).
Proof.
  induction a as [|x a IH]; simpl.
  - reflexivity.
  - now rewrite IH.
Qed.

Lemma append_nonempty_r (a : string) (x : ascii) (b : string) :
  a ++ String x b <> "".
Proof. destruct a; simpl; discriminate. Qed.

Lemma nonempty_true_iff (s : string) : nonempty s = true <-> s <> "".
Proof.
  destruct s; simpl; split; intro H; try discriminate; try reflexivity.
  now elim H.
Qed.

Lemma blank_empty : blank "" = true.
Proof. reflexivity. Qed.

(** ** Endpoint derivation *)

Lemma endpoint_unfold (adBase tenant : string) (version : TokenVersion) :
  endpoint adBase tenant version
  = adBase ++ "/" ++ (if String.eqb tenant "" then "common" else tenant)
      ++ tokenPath version.
Proof.
  unfold endpoint, tokenPath.
  destruct (Z.eqb version TokenVersion2);
    repeat rewrite append_assoc; reflexivity.
Qed.

(** C3.  The token URL is the AD base, a slash, the tenant segment
    ("common" for the empty tenant) and then "/oauth2/token" for version 1
    or "/oauth2/v2.0/token" for version 2; the two worked examples of the
    specification evaluate as given. *)
Theorem endpoint_token_url (adBase tenant : string) :
  let segment := if String.eqb tenant "" then "common" else tenant in
  endpoint adBase tenant TokenVersion1
    = adBase ++ "/" ++ segment ++ "/oauth2/token"
  /\ endpoint adBase tenant TokenVersion2
    = adBase ++ "/" ++ segment ++ "/oauth2/v2.0/token"
  /\ endpoint "https://login.example/adtenant" "" TokenVersion2
    = "https://login.example/adtenant/common/oauth2/v2.0/token"
  /\ endpoint "https://login.example/adtenant" "t1" TokenVersion1
    = "https://login.example/adtenant/t1/oauth2/token".
Proof.
  cbv zeta. repeat split; try reflexivity; apply endpoint_unfold.
Qed.

(** C8, as stated, fails: a tenant of one space is blank for the selection
    guards, yet [endpoint] keeps it as the tenant segment. *)
Lemma endpoint_blank_tenant_not_common :
  ~ (forall adBase tenant version,
        blank tenant = true ->
        endpoint adBase tenant version
        = adBase ++ "/common" ++ tokenPath version).
Proof.
  intro H.
  specialize (H "https://login.example/adtenant" " " TokenVersion2 eq_refl).
  discriminate H.
Qed.

(** C8, amended.  [endpoint] substitutes "common" for the empty tenant
    string; every non-empty tenant, a whitespace-only one included, is
    used unchanged as the tenant segment. *)
Theorem endpoint_common_only_for_empty
    (adBase tenant : string) (version : TokenVersion) :
  tenant <> "" ->
  endpoint adBase "" version = adBase ++ "/common" ++ tokenPath version
  /\ endpoint adBase tenant version
     = adBase ++ "/" ++ tenant ++ tokenPath version.
Proof.
  intro Hne. split.
  - rewrite endpoint_unfold. reflexivity.
  - rewrite endpoint_unfold.
    destruct (String.eqb_spec tenant ""); [contradiction | reflexivity].
Qed.

Lemma endpoint_common_only_for_empty_witness :
  blank " " = true
  /\ endpoint "https://login.example/adtenant" "" TokenVersion2
     = "https://login.example/adtenant" ++ "/common" ++ tokenPath TokenVersion2
  /\ endpoint "https://login.example/adtenant" " " TokenVersion2
     = "https://login.example/adtenant" ++ "/" ++ " " ++ tokenPath TokenVersion2.
Proof.
  split; [reflexivity |].
  apply (endpoint_common_only_for_empty
           "https://login.example/adtenant" " " TokenVersion2).
  discriminate.
Defined.

(** ** Scopes and the legacy resource *)

Lemma scopes_recognized (env : environments.Environment) (api : Api) :
  api = MsGraph \/ api = AadGraph ->
  scopes env api = [apiEndpoint env api ++ "/.default"].
Proof. intros [-> | ->]; reflexivity. Qed.

Lemma resource_recognized (env : environments.Environment) (api : Api) :
  api = MsGraph \/ api = AadGraph ->
  resource env api = apiEndpoint env api ++ "/".
Proof. intros [-> | ->]; reflexivity. Qed.

(** The resource field after the version test of both constructors. *)
Lemma resource_attached_iff
    (conf : microsoft.Config) (r : string) (version : TokenVersion) :
  microsoft.Resource conf = "" -> r <> "" ->
  let conf' := if Z.eqb version TokenVersion1
               then microsoft.setResource conf r else conf in
  (microsoft.Resource conf' <> "" <-> version = TokenVersion1)
  /\ (version = TokenVersion1 -> microsoft.Resource conf' = r).
Proof.
  intros Hzero Hr. cbv zeta.
  destruct (Z.eqb_spec version TokenVersion1) as [-> | Hv]; simpl.
  - repeat split; auto.
  - rewrite Hzero. split; [split |]; intro H; contradiction.
Qed.

(** C4.  For a recognized API target the scope list is the single entry
    "{endpoint}/.default", and the configuration handed to the token
    source carries a resource exactly when the token version is 1, the
    resource then being "{endpoint}/". *)
Theorem scopes_and_resource
    (env : environments.Environment) (api : Api) (version : TokenVersion)
    (tenantId clientId clientSecret : string) :
  api = MsGraph \/ api = AadGraph ->
  scopes env api = [apiEndpoint env api ++ "/.default"]
  /\ exists conf,
       value (NewClientSecretAuthorizer env api version
                tenantId clientId clientSecret)
       = (Some (ClientCredentialsSource conf microsoft.AuthTypeSecret), None)
       /\ microsoft.Scopes conf = [apiEndpoint env api ++ "/.default"]
       /\ (microsoft.Resource conf <> "" <-> version = TokenVersion1)
       /\ (version = TokenVersion1 ->
           microsoft.Resource conf = apiEndpoint env api ++ "/").
Proof.
  intro Hapi. split; [now apply scopes_recognized |].
  unfold NewClientSecretAuthorizer.
  set (conf0 := {| microsoft.ClientID := clientId |}).
  exists (if Z.eqb version TokenVersion1
          then microsoft.setResource conf0 (resource env api) else conf0).
  split; [reflexivity |]. split.
  - destruct (Z.eqb version TokenVersion1); simpl;
      now apply scopes_recognized.
  - rewrite <- (resource_recognized env api Hapi).
    apply resource_attached_iff; [reflexivity |].
    rewrite (resource_recognized env api Hapi). apply append_nonempty_r.
Qed.

(** The certificate constructor shapes its configuration the same way. *)
Lemma certificate_conf_resource (X : Externals)
    (env : environments.Environment) (api : Api) (version : TokenVersion)
    (tenantId clientId pfxPath pfxPass pfx : string)
    (priv : rsa.PrivateKey) (cert : x509.Certificate) :
  api = MsGraph \/ api = AadGraph ->
  ReadFile X pfxPath = Ok pfx ->
  pkcs12_Decode X pfx pfxPass = Ok (RsaPrivateKey priv, cert) ->
  exists conf,
    value (NewClientCertificateAuthorizer X env api version
             tenantId clientId pfxPath pfxPass)
    = (Some (ClientCredentialsSource conf microsoft.AuthTypeAssertion), None)
    /\ microsoft.Scopes conf = [apiEndpoint env api ++ "/.default"]
    /\ (microsoft.Resource conf <> "" <-> version = TokenVersion1)
    /\ (version = TokenVersion1 ->
        microsoft.Resource conf = apiEndpoint env api ++ "/").
Proof.
  intros Hapi Hread Hdec.
  unfold NewClientCertificateAuthorizer, bind, emit, value. simpl.
  rewrite Hread, Hdec. simpl.
  set (conf0 := {| microsoft.ClientID := clientId |}).
  exists (if Z.eqb version TokenVersion1
          then microsoft.setResource conf0 (resource env api) else conf0).
  split; [reflexivity |]. split.
  - destruct (Z.eqb version TokenVersion1); simpl;
      now apply scopes_recognized.
  - rewrite <- (resource_recognized env api Hapi).
    apply resource_attached_iff; [reflexivity |].
    rewrite (resource_recognized env api Hapi). apply append_nonempty_r.
Qed.

Lemma scopes_and_resource_witness :
  scopes Demo.env AadGraph = [apiEndpoint Demo.env AadGraph ++ "/.default"]
  /\ exists conf,
       value (NewClientSecretAuthorizer Demo.env AadGraph
                TokenVersion1 "t" "c" "s")
       = (Some (ClientCredentialsSource conf microsoft.AuthTypeSecret), None)
       /\ microsoft.Scopes conf = [apiEndpoint Demo.env AadGraph ++ "/.default"]
       /\ (microsoft.Resource conf <> "" <-> TokenVersion1 = TokenVersion1)
       /\ (TokenVersion1 = TokenVersion1 ->
           microsoft.Resource conf = apiEndpoint Demo.env AadGraph ++ "/").
Proof.
  apply (scopes_and_resource Demo.env AadGraph TokenVersion1 "t" "c" "s").
  right. reflexivity.
Defined.

(** ** The blocks of the selector *)

Lemma attempt_skip (construct : Call (Authorizer * error))
    (prefix : string) (rest : Call (Authorizer * error)) :
  attempt false construct prefix rest = rest.
Proof. reflexivity. Qed.

Lemma attempt_error (construct : Call (Authorizer * error))
    (prefix : string) (rest : Call (Authorizer * error))
    (a : Authorizer) (err : string) :
  value construct = (a, Some err) ->
  attempt true construct prefix rest
  = ((None, Some (prefix ++ err)), trace construct).
Proof.
  destruct construct as [r tr]. unfold value, trace. simpl. intros ->.
  unfold attempt, bind, ret. destruct a; simpl; now rewrite app_nil_r.
Qed.

Lemma attempt_success (construct : Call (Authorizer * error))
    (prefix : string) (rest : Call (Authorizer * error)) (a : TokenSource) :
  value construct = (Some a, None) ->
  attempt true construct prefix rest = ((Some a, None), trace construct).
Proof.
  destruct construct as [r tr]. unfold value, trace. simpl. intros ->.
  unfold attempt, bind, ret. simpl. now rewrite app_nil_r.
Qed.

(** A block whose constructor and continuation both return exactly one of
    authorizer and error does so itself. *)
Lemma attempt_exclusive (guard : bool) (construct : Call (Authorizer * error))
    (prefix : string) (rest : Call (Authorizer * error)) :
  exclusive (value rest) = true ->
  exclusive (value (attempt guard construct prefix rest)) = true.
Proof.
  intro Hrest. destruct guard; [| exact Hrest].
  destruct construct as [[[a|] [e|]] tr]; unfold attempt, bind; simpl;
    try reflexivity.
  destruct rest as [r tr']. exact Hrest.
Qed.

Lemma certSpecified_true_iff (c : Config) :
  certSpecified c = true <->
  EnableClientCertAuth c = true /\ blank (TenantID c) = false
  /\ blank (ClientID c) = false /\ blank (ClientCertPath c) = false.
Proof.
  unfold certSpecified, blank.
  repeat rewrite andb_true_iff. repeat rewrite negb_false_iff. tauto.
Qed.

Lemma certSpecified_false_of_blank (c : Config) :
  blank (TenantID c) = true \/ blank (ClientID c) = true
  \/ blank (ClientCertPath c) = true ->
  certSpecified c = false.
Proof.
  unfold certSpecified, blank. repeat rewrite negb_true_iff.
  intros [H | [H | H]]; rewrite H;
    repeat rewrite andb_false_r; reflexivity.
Qed.

Section Selection.

Variable X : Externals.

(** *** What each constructor returns and which calls it makes *)

Lemma certificate_exclusive env api version tenantId clientId pfxPath pfxPass :
  exclusive (value (NewClientCertificateAuthorizer X env api version
                      tenantId clientId pfxPath pfxPass)) = true.
Proof.
  unfold NewClientCertificateAuthorizer, bind, emit, value. simpl.
  destruct (ReadFile X pfxPath) as [pfx | e]; simpl; [| reflexivity].
  destruct (pkcs12_Decode X pfx pfxPass) as [[[k | d | s] cert] | e];
    reflexivity.
Qed.

Lemma certificate_trace env api version tenantId clientId pfxPath pfxPass :
  let t := trace (NewClientCertificateAuthorizer X env api version
                    tenantId clientId pfxPath pfxPass) in
  (exists rest, t = CallReadFile pfxPath :: rest)
  /\ Forall (fun e => eventMethod e = Certificate) t.
Proof.
  unfold NewClientCertificateAuthorizer, bind, emit, trace. simpl.
  destruct (ReadFile X pfxPath) as [pfx | e]; simpl.
  - destruct (pkcs12_Decode X pfx pfxPass) as [[[k | d | s] cert] | e];
      simpl; (split; [eexists; reflexivity | repeat constructor]).
  - split; [eexists; reflexivity | repeat constructor].
Qed.

Lemma secret_succeeds env api version tenantId clientId clientSecret :
  exists conf,
    NewClientSecretAuthorizer env api version tenantId clientId clientSecret
    = ((Some (ClientCredentialsSource conf microsoft.AuthTypeSecret), None),
       [CallTokenSource microsoft.AuthTypeSecret]).
Proof. eexists. reflexivity. Qed.

Lemma azureCli_exclusive api tenantId :
  exclusive (value (NewAzureCliAuthorizer X api tenantId)) = true.
Proof.
  unfold NewAzureCliAuthorizer, bind, emit, value. simpl.
  destruct (NewAzureCliConfig X api tenantId); reflexivity.
Qed.

Lemma azureCli_trace api tenantId :
  Forall (fun e => eventMethod e = AzureCli)
         (trace (NewAzureCliAuthorizer X api tenantId)).
Proof.
  unfold NewAzureCliAuthorizer, bind, emit, trace. simpl.
  destruct (NewAzureCliConfig X api tenantId); simpl; repeat constructor.
Qed.

Lemma fromAzureCli_exclusive c api :
  exclusive (value (fromAzureCli X c api)) = true.
Proof. unfold fromAzureCli. now apply attempt_exclusive. Qed.

Lemma fromClientSecret_exclusive c api :
  exclusive (value (fromClientSecret X c api)) = true.
Proof.
  unfold fromClientSecret. apply attempt_exclusive, fromAzureCli_exclusive.
Qed.

Lemma NewAuthorizer_exclusive c api :
  exclusive (value (NewAuthorizer X c api)) = true.
Proof.
  unfold NewAuthorizer. apply attempt_exclusive, fromClientSecret_exclusive.
Qed.

Lemma fromAzureCli_trace c api :
  Forall (fun e => eventMethod e = AzureCli) (trace (fromAzureCli X c api)).
Proof.
  unfold fromAzureCli. destruct (EnableAzureCliToken c).
  - pose proof (azureCli_exclusive api (TenantID c)) as Hex.
    pose proof (azureCli_trace api (TenantID c)) as Htr.
    destruct (NewAzureCliAuthorizer X api (TenantID c))
      as [[[a|] [e|]] tr]; try discriminate Hex;
      unfold attempt, bind, trace in *; simpl in *;
      now rewrite app_nil_r.
  - constructor.
Qed.

Lemma fromClientSecret_trace c api :
  Forall (fun e => eventMethod e <> Certificate)
         (trace (fromClientSecret X c api)).
Proof.
  unfold fromClientSecret. destruct (secretSpecified c).
  - destruct (secret_succeeds (Environment c) api (Version c)
                (TenantID c) (ClientID c) (ClientSecret c)) as [conf ->].
    repeat constructor. discriminate.
  - rewrite attempt_skip.
    eapply Forall_impl; [| apply fromAzureCli_trace].
    intros e ->. discriminate.
Qed.

End Selection.

(** ** Method selection *)

Section Precedence.

Variable X : Externals.

(** C1.  When certificate authentication is enabled and tenant id, client
    id and certificate path are non-blank, [NewAuthorizer] returns what the
    certificate constructor returns (its error wrapped), whatever the
    secret and CLI settings are: the calls it makes are those of the
    certificate constructor, beginning with the read of the bundle, and
    none of them belongs to the secret or CLI method. *)
Theorem certificate_precedence (c : Config) (api : Api) :
  EnableClientCertAuth c = true ->
  blank (TenantID c) = false ->
  blank (ClientID c) = false ->
  blank (ClientCertPath c) = false ->
  let cert := NewClientCertificateAuthorizer X (Environment c) api (Version c)
                (TenantID c) (ClientID c) (ClientCertPath c)
                (ClientCertPassword c) in
  value (NewAuthorizer X c api)
  = match value cert with
    | (_, Some err) =>
        (None, Some ("could not configure ClientCertificate Authorizer: " ++ err))
    | (a, None) => (a, None)
    end
  /\ trace (NewAuthorizer X c api) = trace cert
  /\ (exists rest,
        trace (NewAuthorizer X c api) = CallReadFile (ClientCertPath c) :: rest)
  /\ Forall (fun e => eventMethod e = Certificate)
            (trace (NewAuthorizer X c api)).
Proof.
  intros Hen Ht Hc Hp cert.
  assert (Hguard : certSpecified c = true)
    by (apply certSpecified_true_iff; auto).
  pose proof (certificate_exclusive X (Environment c) api (Version c)
                (TenantID c) (ClientID c) (ClientCertPath c)
                (ClientCertPassword c)) as Hex.
  destruct (certificate_trace X (Environment c) api (Version c)
              (TenantID c) (ClientID c) (ClientCertPath c)
              (ClientCertPassword c)) as [Hhead Hall].
  fold cert in Hex, Hhead, Hall.
  assert (Heq : NewAuthorizer X c api
                = (match value cert with
                   | (_, Some err) =>
                       (None, Some ("could not configure ClientCertificate Authorizer: " ++ err))
                   | (a, None) => (a, None)
                   end, trace cert)).
  { unfold NewAuthorizer. fold cert. rewrite Hguard.
    destruct (value cert) as [[a|] [e|]] eqn:Hv; try discriminate Hex.
    - now apply attempt_success.
    - now apply attempt_error with (a := None). }
  rewrite Heq. unfold value at 1, trace at 1 3 5. simpl. auto.
Qed.

(** C2.  A failing construction step ends the selection.  If the
    certificate block is entered and its constructor returns an error,
    [NewAuthorizer] returns that error, wrapped, with a [nil] authorizer
    and no call beyond the constructor's own.  The secret block does the
    same for a failing constructor; in this code [NewClientSecretAuthorizer]
    has no failing path, so the block is stated for any constructor result
    put in its place. *)
Theorem construction_failure_surfaces
    (c : Config) (api : Api) (a : Authorizer) (err : string) :
  (certSpecified c = true ->
   value (NewClientCertificateAuthorizer X (Environment c) api (Version c)
            (TenantID c) (ClientID c) (ClientCertPath c)
            (ClientCertPassword c)) = (a, Some err) ->
   value (NewAuthorizer X c api)
   = (None, Some ("could not configure ClientCertificate Authorizer: " ++ err))
   /\ Forall (fun e => eventMethod e = Certificate)
             (trace (NewAuthorizer X c api)))
  /\ (forall construct : Call (Authorizer * error),
        secretSpecified c = true ->
        value construct = (a, Some err) ->
        attempt (secretSpecified c) construct
          "could not configure ClientCertificate Authorizer: "
          (fromAzureCli X c api)
        = ((None,
            Some ("could not configure ClientCertificate Authorizer: " ++ err)),
           trace construct)).
Proof.
  split.
  - intros Hguard Hv. unfold NewAuthorizer. rewrite Hguard.
    rewrite (attempt_error _ _ _ a err Hv). split; [reflexivity |].
    apply certificate_trace.
  - intros construct Hguard Hv. rewrite Hguard.
    now apply attempt_error with (a := a).
Qed.

(** C5.  With no method both enabled and sufficiently specified,
    [NewAuthorizer] returns a [nil] authorizer and the configuration error,
    having called nothing; and whatever the configuration, it never returns
    a non-[nil] authorizer together with a non-[nil] error. *)
Theorem no_method_is_an_error (c : Config) (api : Api) :
  (certSpecified c = false ->
   secretSpecified c = false ->
   EnableAzureCliToken c = false ->
   NewAuthorizer X c api
   = ((None,
       Some "no Authorizer could be configured, please check your configuration"),
      []))
  /\ ~ (fst (value (NewAuthorizer X c api)) <> None
        /\ snd (value (NewAuthorizer X c api)) <> None).
Proof.
  split.
  - intros Hc Hs Hz. unfold NewAuthorizer, fromClientSecret, fromAzureCli.
    rewrite Hc, Hs, Hz. reflexivity.
  - pose proof (NewAuthorizer_exclusive X c api) as Hex.
    destruct (value (NewAuthorizer X c api)) as [[a|] [e|]];
      simpl in *; try discriminate Hex; intros [H1 H2]; congruence.
Qed.

(** C6.  With certificate authentication enabled but tenant id, client id
    or certificate path blank, [NewAuthorizer] makes no call of the
    certificate method and goes on to the next method in order.  If secret
    authentication is enabled with tenant id, client id and secret
    non-blank, the result is the secret authorizer built from them, with
    the token source as the only call.  Otherwise, if the Azure CLI is
    enabled, the CLI is probed and the result is its authorizer or its
    error, wrapped.  Otherwise the result is the configuration error and
    nothing is called. *)
Theorem blank_certificate_field_skips (c : Config) (api : Api) :
  EnableClientCertAuth c = true ->
  blank (TenantID c) = true \/ blank (ClientID c) = true
  \/ blank (ClientCertPath c) = true ->
  Forall (fun e => eventMethod e <> Certificate)
         (trace (NewAuthorizer X c api))
  /\ (EnableClientSecretAuth c = true ->
      blank (TenantID c) = false ->
      blank (ClientID c) = false ->
      blank (ClientSecret c) = false ->
      NewAuthorizer X c api
      = ((Some (ClientCredentialsSource
                  {| microsoft.ClientID := ClientID c;
                     microsoft.ClientSecret := ClientSecret c;
                     microsoft.PrivateKey := "";
                     microsoft.Certificate := "";
                     microsoft.Scopes := scopes (Environment c) api;
                     microsoft.TokenURL :=
                       endpoint
                         (environments.AzureADEndpoint (Environment c))
                         (TenantID c) (Version c);
                     microsoft.Resource :=
                       if Z.eqb (Version c) TokenVersion1
                       then resource (Environment c) api else "" |}
                  microsoft.AuthTypeSecret),
          None),
         [CallTokenSource microsoft.AuthTypeSecret]))
  /\ (secretSpecified c = false ->
      EnableAzureCliToken c = true ->
      NewAuthorizer X c api
      = match NewAzureCliConfig X api (TenantID c) with
        | Ok conf =>
            ((Some (AzureCliSource conf), None),
             [CallNewAzureCliConfig api (TenantID c); CallCliTokenSource])
        | Err err =>
            ((None, Some ("could not configure AzureCli Authorizer: " ++ err)),
             [CallNewAzureCliConfig api (TenantID c)])
        end)
  /\ (secretSpecified c = false ->
      EnableAzureCliToken c = false ->
      NewAuthorizer X c api
      = ((None,
          Some "no Authorizer could be configured, please check your configuration"),
         [])).
Proof.
  intros _ Hblank.
  assert (Heq : NewAuthorizer X c api = fromClientSecret X c api).
  { unfold NewAuthorizer.
    rewrite (certSpecified_false_of_blank c Hblank). apply attempt_skip. }
  rewrite Heq. split; [apply fromClientSecret_trace |].
  unfold fromClientSecret, fromAzureCli. split; [| split].
  - intros Hen Ht Hc Hs.
    assert (Hguard : secretSpecified c = true).
    { unfold secretSpecified. unfold blank in Ht, Hc, Hs.
      apply negb_false_iff in Ht, Hc, Hs. now rewrite Hen, Ht, Hc, Hs. }
    rewrite Hguard. unfold NewClientSecretAuthorizer.
    destruct (Z.eqb (Version c) TokenVersion1); reflexivity.
  - intros Hs Hz. rewrite Hs, Hz, attempt_skip.
    unfold NewAzureCliAuthorizer, attempt, bind, emit. simpl.
    destruct (NewAzureCliConfig X api (TenantID c)); reflexivity.
  - intros Hs Hz. rewrite Hs, Hz. reflexivity.
Qed.

(** C10.  Two configurations that differ at most in [EnableMsiAuth] and
    [MsiEndpoint] give the same result and the same calls. *)
Theorem msi_fields_ignored (c c' : Config) (api : Api) :
  sameExceptMsi c c' ->
  NewAuthorizer X c api = NewAuthorizer X c' api.
Proof.
  destruct c, c'. unfold sameExceptMsi. simpl.
  intros (-> & -> & -> & -> & -> & -> & -> & -> & -> & ->).
  reflexivity.
Qed.

End Precedence.

(** ** Certificate decoding *)

Lemma prefix_append (s t : string) : prefix s (s ++ t) = true.
Proof.
  induction s as [|x s IH]; simpl.
  - now destruct t.
  - destruct (ascii_dec x x) as [_ | Hne]; [exact IH | now elim Hne].
Qed.

Lemma contains_of_prefix (s sub : string) :
  prefix sub s = true -> contains s sub = true.
Proof. intro H. destruct s; cbn [contains]; rewrite H; reflexivity. Qed.

Lemma contains_append (a s b : string) : contains (a ++ s ++ b) s = true.
Proof.
  induction a as [|x a IH]; cbn [append contains].
  - apply contains_of_prefix, prefix_append.
  - rewrite IH. now destruct (prefix s (String x (a ++ s ++ b))).
Qed.

Lemma append_empty_r (s : string) : s ++ "" = s.
Proof. induction s as [|x s IH]; simpl; congruence. Qed.

Lemma contains_suffix (a s : string) : contains (a ++ s) s = true.
Proof.
  rewrite <- (append_empty_r s) at 1. apply contains_append.
Qed.

Section Certificate.

Variable X : Externals.

(** X15.  Once the bundle is read, the certificate constructor follows
    the decoder and ends in one of three ways.  A decoder error comes back
    as the decode error and a key that is not RSA as the non-RSA error
    with the quoted path, both with a [nil] authorizer and without a token
    source being built.  An RSA key gives the assertion authorizer, whose
    configuration holds the PKCS#1 encoding of that key and the raw bytes
    of the decoded certificate, together and unchanged, and no client
    secret. *)
Theorem constructor_follows_decoder
    (env : environments.Environment) (api : Api) (version : TokenVersion)
    (tenantId clientId pfxPath pfxPass pfx : string) :
  ReadFile X pfxPath = Ok pfx ->
  NewClientCertificateAuthorizer X env api version
    tenantId clientId pfxPath pfxPass
  = match pkcs12_Decode X pfx pfxPass with
    | Err err =>
        ((None, Some ("could not decode pkcs12 credential store: " ++ err)),
         [CallReadFile pfxPath; CallPkcs12Decode pfx])
    | Ok (RsaPrivateKey priv, cert) =>
        ((Some (ClientCredentialsSource
                  {| microsoft.ClientID := clientId;
                     microsoft.ClientSecret := "";
                     microsoft.PrivateKey := MarshalPKCS1PrivateKey X priv;
                     microsoft.Certificate := x509.Raw cert;
                     microsoft.Scopes := scopes env api;
                     microsoft.TokenURL :=
                       endpoint (environments.AzureADEndpoint env)
                                tenantId version;
                     microsoft.Resource :=
                       if Z.eqb version TokenVersion1
                       then resource env api else "" |}
                  microsoft.AuthTypeAssertion),
          None),
         [CallReadFile pfxPath; CallPkcs12Decode pfx;
          CallTokenSource microsoft.AuthTypeAssertion])
    | Ok (_, _) =>
        ((None, Some ("unsupported non-rsa key was found in pkcs12 store "
                      ++ Quote X pfxPath)),
         [CallReadFile pfxPath; CallPkcs12Decode pfx])
    end.
Proof.
  intro Hread.
  unfold NewClientCertificateAuthorizer, bind, emit. simpl.
  rewrite Hread. simpl.
  destruct (pkcs12_Decode X pfx pfxPass) as [[[priv | d | s] cert] | e];
    simpl; try reflexivity.
  destruct (Z.eqb version TokenVersion1); reflexivity.
Qed.

(** The password reaches the decoder and nothing else: two passwords that
    the decoder treats alike give the same authorizer or the same error. *)
Lemma password_only_through_decoder
    (env : environments.Environment) (api : Api) (version : TokenVersion)
    (tenantId clientId pfxPath pass pass' : string) :
  (forall pfx, pkcs12_Decode X pfx pass = pkcs12_Decode X pfx pass') ->
  NewClientCertificateAuthorizer X env api version
    tenantId clientId pfxPath pass
  = NewClientCertificateAuthorizer X env api version
      tenantId clientId pfxPath pass'.
Proof.
  intro H. unfold NewClientCertificateAuthorizer, bind, emit. simpl.
  destruct (ReadFile X pfxPath) as [pfx | e]; simpl; [| reflexivity].
  now rewrite (H pfx).
Qed.

(** The read failure and the non-RSA failure both name the quoted path. *)
Lemma read_failure_names_path
    (env : environments.Environment) (api : Api) (version : TokenVersion)
    (tenantId clientId pfxPath pfxPass err : string) :
  ReadFile X pfxPath = Err err ->
  exists msg,
    value (NewClientCertificateAuthorizer X env api version
             tenantId clientId pfxPath pfxPass) = (None, Some msg)
    /\ contains msg (Quote X pfxPath) = true.
Proof.
  intro Hread.
  exists ("could not read pkcs12 store at " ++ Quote X pfxPath ++ ": " ++ err).
  split; [| apply contains_append].
  unfold NewClientCertificateAuthorizer, bind, emit, value.
  simpl. rewrite Hread. reflexivity.
Qed.

Lemma non_rsa_failure_names_path
    (env : environments.Environment) (api : Api) (version : TokenVersion)
    (tenantId clientId pfxPath pfxPass pfx : string)
    (key : PrivateKey) (cert : x509.Certificate) :
  ReadFile X pfxPath = Ok pfx ->
  pkcs12_Decode X pfx pfxPass = Ok (key, cert) ->
  (forall priv, key <> RsaPrivateKey priv) ->
  exists msg,
    value (NewClientCertificateAuthorizer X env api version
             tenantId clientId pfxPath pfxPass) = (None, Some msg)
    /\ contains msg (Quote X pfxPath) = true.
Proof.
  intros Hread Hdec Hkey.
  exists ("unsupported non-rsa key was found in pkcs12 store "
          ++ Quote X pfxPath).
  split; [| apply contains_suffix].
  unfold NewClientCertificateAuthorizer, bind, emit, value.
  simpl. rewrite Hread. simpl. rewrite Hdec.
  destruct key as [priv | d | s]; [now elim (Hkey priv) | |]; reflexivity.
Qed.

End Certificate.

(** ** The properties at concrete configurations *)

(** All three methods enabled and specified: only certificate calls. *)
Lemma certificate_precedence_witness :
  EnableClientSecretAuth Demo.config = true
  /\ EnableAzureCliToken Demo.config = true
  /\ trace (NewAuthorizer Demo.world Demo.config MsGraph)
     = [CallReadFile "/etc/hamilton/client.pfx"; CallPkcs12Decode "pfx-rsa";
        CallTokenSource microsoft.AuthTypeAssertion]
  /\ Forall (fun e => eventMethod e = Certificate)
            (trace (NewAuthorizer Demo.world Demo.config MsGraph)).
Proof.
  split; [reflexivity |]. split; [reflexivity |]. split; [reflexivity |].
  apply (certificate_precedence Demo.world Demo.config MsGraph);
    reflexivity.
Defined.

(** A wrong password with secret and CLI enabled, and the secret block
    with a failing constructor put in. *)
Lemma construction_failure_surfaces_witness :
  (value (NewAuthorizer Demo.world
            (Demo.withCert "/etc/hamilton/client.pfx" "wrong" Demo.config)
            AadGraph)
   = (None,
      Some ("could not configure ClientCertificate Authorizer: "
            ++ "could not decode pkcs12 credential store: "
            ++ "pkcs12: decryption password incorrect"))
   /\ Forall (fun e => eventMethod e = Certificate)
        (trace (NewAuthorizer Demo.world
                  (Demo.withCert "/etc/hamilton/client.pfx" "wrong" Demo.config)
                  AadGraph)))
  /\ attempt (secretSpecified Demo.config) ((None, Some "refused"), [])
       "could not configure ClientCertificate Authorizer: "
       (fromAzureCli Demo.world Demo.config AadGraph)
     = ((None,
         Some ("could not configure ClientCertificate Authorizer: "
               ++ "refused")),
        []).
Proof.
  split.
  - apply (proj1 (construction_failure_surfaces Demo.world
                    (Demo.withCert "/etc/hamilton/client.pfx" "wrong"
                       Demo.config)
                    AadGraph None
                    ("could not decode pkcs12 credential store: "
                     ++ "pkcs12: decryption password incorrect")));
      reflexivity.
  - apply (proj2 (construction_failure_surfaces Demo.world Demo.config
                    AadGraph None "refused")
             ((None, Some "refused"), []));
      reflexivity.
Defined.

(** No method enabled. *)
Lemma no_method_is_an_error_witness :
  NewAuthorizer Demo.world (Demo.withMethods false false false Demo.config)
    MsGraph
  = ((None,
      Some "no Authorizer could be configured, please check your configuration"),
     []).
Proof.
  apply (proj1 (no_method_is_an_error Demo.world
                  (Demo.withMethods false false false Demo.config) MsGraph));
    reflexivity.
Defined.

(** Every method enabled and given its material.  With a whitespace-only
    certificate path the secret method is next; with a whitespace-only
    tenant neither credential method is specified and the CLI is used;
    with a whitespace-only path and certificate authentication alone
    enabled nothing is left. *)
Lemma blank_certificate_field_skips_witness :
  NewAuthorizer Demo.world (Demo.withCert "  " "hunter2" Demo.config) MsGraph
  = ((Some (ClientCredentialsSource
              {| microsoft.ClientID := "c";
                 microsoft.ClientSecret := "s";
                 microsoft.PrivateKey := "";
                 microsoft.Certificate := "";
                 microsoft.Scopes := ["https://graph.example/.default"];
                 microsoft.TokenURL :=
                   "https://login.example/adtenant/t/oauth2/v2.0/token";
                 microsoft.Resource := "" |}
              microsoft.AuthTypeSecret),
      None),
     [CallTokenSource microsoft.AuthTypeSecret])
  /\ NewAuthorizer Demo.world (Demo.withTenant "  " Demo.config) MsGraph
     = ((Some (AzureCliSource {| CliApi := MsGraph; CliTenantID := "  " |}),
         None),
        [CallNewAzureCliConfig MsGraph "  "; CallCliTokenSource])
  /\ NewAuthorizer Demo.world
       (Demo.withMethods true false false
          (Demo.withCert "  " "hunter2" Demo.config)) MsGraph
     = ((None,
         Some "no Authorizer could be configured, please check your configuration"),
        []).
Proof.
  split; [| split].
  - apply (proj1 (proj2 (blank_certificate_field_skips Demo.world
                           (Demo.withCert "  " "hunter2" Demo.config) MsGraph
                           eq_refl (or_intror (or_intror eq_refl)))));
      reflexivity.
  - apply (proj1 (proj2 (proj2 (blank_certificate_field_skips Demo.world
                                   (Demo.withTenant "  " Demo.config) MsGraph
                                   eq_refl (or_introl eq_refl)))));
      reflexivity.
  - apply (proj2 (proj2 (proj2 (blank_certificate_field_skips Demo.world
                                   (Demo.withMethods true false false
                                      (Demo.withCert "  " "hunter2"
                                         Demo.config))
                                   MsGraph
                                   eq_refl (or_intror (or_intror eq_refl))))));
      reflexivity.
Defined.

Lemma msi_fields_ignored_witness :
  NewAuthorizer Demo.world Demo.config MsGraph
  = NewAuthorizer Demo.world
      (Demo.withMsi true "http://169.254.169.254/metadata" Demo.config)
      MsGraph.
Proof.
  apply (msi_fields_ignored Demo.world Demo.config
           (Demo.withMsi true "http://169.254.169.254/metadata" Demo.config)
           MsGraph).
  repeat split.
Defined.

(** The RSA bundle under its password, for version 1 tokens. *)
Lemma constructor_follows_decoder_witness :
  NewClientCertificateAuthorizer Demo.world Demo.env MsGraph TokenVersion1
    "t" "c" "/etc/hamilton/client.pfx" "hunter2"
  = ((Some (ClientCredentialsSource
              {| microsoft.ClientID := "c";
                 microsoft.ClientSecret := "";
                 microsoft.PrivateKey := "0-pkcs1-der";
                 microsoft.Certificate := "0-cert-der";
                 microsoft.Scopes := ["https://graph.example/.default"];
                 microsoft.TokenURL :=
                   "https://login.example/adtenant/t/oauth2/token";
                 microsoft.Resource := "https://graph.example/" |}
              microsoft.AuthTypeAssertion),
      None),
     [CallReadFile "/etc/hamilton/client.pfx"; CallPkcs12Decode "pfx-rsa";
      CallTokenSource microsoft.AuthTypeAssertion]).
Proof.
  apply (constructor_follows_decoder Demo.world Demo.env MsGraph TokenVersion1
           "t" "c" "/etc/hamilton/client.pfx" "hunter2" "pfx-rsa").
  reflexivity.
Defined.

(** C9.  The code at a bundle that does not open with the given password:
    the decode failure is reported without the bundle path, bare or
    quoted, both by the constructor and, wrapped, by [NewAuthorizer];
    the read failure and the non-RSA failure of the same constructor do
    name the quoted path. *)
Theorem decode_failure_omits_path :
  let path := "/etc/hamilton/client.pfx" in
  let msg := "could not decode pkcs12 credential store: "
             ++ "pkcs12: decryption password incorrect" in
  value (NewClientCertificateAuthorizer Demo.world Demo.env MsGraph
           TokenVersion2 "t" "c" path "wrong")
  = (None, Some msg)
  /\ contains msg path = false
  /\ contains msg (Quote Demo.world path) = false
  /\ value (NewAuthorizer Demo.world (Demo.withCert path "wrong" Demo.config)
              MsGraph)
     = (None, Some ("could not configure ClientCertificate Authorizer: " ++ msg))
  /\ contains ("could not configure ClientCertificate Authorizer: " ++ msg)
       path = false
  /\ (exists msg',
        value (NewClientCertificateAuthorizer Demo.world Demo.env MsGraph
                 TokenVersion2 "t" "c" "/etc/hamilton/ec.pfx" "hunter2")
        = (None, Some msg')
        /\ contains msg' (Quote Demo.world "/etc/hamilton/ec.pfx") = true)
  /\ (exists msg',
        value (NewClientCertificateAuthorizer Demo.world Demo.env MsGraph
                 TokenVersion2 "t" "c" "/etc/hamilton/none.pfx" "hunter2")
        = (None, Some msg')
        /\ contains msg' (Quote Demo.world "/etc/hamilton/none.pfx") = true).
Proof.
  cbv zeta. repeat split; try reflexivity.
  - eexists. split; reflexivity.
  - eexists. split; reflexivity.
Qed.

(** * Further properties of the code *)

(** ** Strings *)

Lemma length_append (a b : string) :
  String.length (a ++ b) = String.length a + String.length b.
Proof. induction a as [|x a IH]; simpl; [reflexivity | now rewrite IH]. Qed.

Lemma append_cancel_l (a x y : string) : a ++ x = a ++ y -> x = y.
Proof.
  induction a as [|c a IH]; simpl; intro H; [exact H |].
  injection H as H. now apply IH.
Qed.

Lemma append_cancel_r (x y s : string) : x ++ s = y ++ s -> x = y.
Proof.
  revert y. induction x as [|c x IH]; intros [|d y] H; simpl in H.
  - reflexivity.
  - apply (f_equal String.length) in H. simpl in H.
    rewrite length_append in H. lia.
  - apply (f_equal String.length) in H. simpl in H.
    rewrite length_append in H. lia.
  - injection H as -> H. f_equal. now apply IH.
Qed.

Lemma blank_false_nonempty (s : string) : blank s = false -> s <> "".
Proof. intros H ->. discriminate H. Qed.

(** ** Token URLs *)

Lemma endpoint_segment (adBase tenant : string) (version : TokenVersion) :
  endpoint adBase tenant version
  = adBase ++ "/" ++ tenantSegment tenant ++ tokenPath version.
Proof. apply endpoint_unfold. Qed.

(** X1.  For one AD base and one token version, two tenants get the same
    token URL exactly when their tenant segments are the same: distinct
    non-empty tenants never share a URL, while the empty tenant shares
    its URL with the tenant "common". *)
Theorem endpoint_separates_tenants
    (adBase t1 t2 : string) (version : TokenVersion) :
  (endpoint adBase t1 version = endpoint adBase t2 version
   <-> tenantSegment t1 = tenantSegment t2)
  /\ endpoint adBase "" version = endpoint adBase "common" version.
Proof.
  split; [| reflexivity].
  rewrite !endpoint_segment. split.
  - intro H. apply append_cancel_l in H. apply append_cancel_l in H.
    now apply append_cancel_r in H.
  - now intros ->.
Qed.

(** X2.  Every version other than [TokenVersion2] gets the version 1 URL,
    and the version 1 and version 2 URLs of the same base and tenant are
    never the same string. *)
Theorem endpoint_separates_versions
    (adBase tenant : string) (version : TokenVersion) :
  (version <> TokenVersion2 ->
   endpoint adBase tenant version = endpoint adBase tenant TokenVersion1)
  /\ endpoint adBase tenant TokenVersion1
     <> endpoint adBase tenant TokenVersion2.
Proof.
  split.
  - intro Hv. rewrite !endpoint_segment. unfold tokenPath.
    destruct (Z.eqb_spec version TokenVersion2); [contradiction | reflexivity].
  - rewrite !endpoint_segment. intro H.
    do 3 apply append_cancel_l in H. discriminate H.
Qed.

Lemma endpoint_separates_versions_witness :
  endpoint "https://login.example/adtenant" "t1" 7%Z
  = endpoint "https://login.example/adtenant" "t1" TokenVersion1.
Proof.
  apply (proj1 (endpoint_separates_versions
                  "https://login.example/adtenant" "t1" 7%Z)).
  discriminate.
Defined.

(** ** Unlisted API targets and token versions *)

(** X3.  An API target other than the two constants is not refused: the
    derivation yields no scope and an empty resource, and the secret
    constructor still returns an authorizer, configured with neither. *)
Theorem unlisted_api_is_not_refused
    (env : environments.Environment) (api : Api) (version : TokenVersion)
    (tenantId clientId clientSecret : string) :
  api <> MsGraph -> api <> AadGraph ->
  scopes env api = []
  /\ resource env api = ""
  /\ exists conf,
       NewClientSecretAuthorizer env api version tenantId clientId clientSecret
       = ((Some (ClientCredentialsSource conf microsoft.AuthTypeSecret), None),
          [CallTokenSource microsoft.AuthTypeSecret])
       /\ microsoft.Scopes conf = []
       /\ microsoft.Resource conf = "".
Proof.
  intros H0 H1.
  assert (Hs : scopes env api = []).
  { unfold scopes. destruct (Z.eqb_spec api MsGraph); [contradiction |].
    destruct (Z.eqb_spec api AadGraph); [contradiction | reflexivity]. }
  assert (Hr : resource env api = "").
  { unfold resource. destruct (Z.eqb_spec api MsGraph); [contradiction |].
    destruct (Z.eqb_spec api AadGraph); [contradiction | reflexivity]. }
  repeat split; try assumption.
  unfold NewClientSecretAuthorizer. rewrite Hs, Hr.
  eexists. split; [reflexivity |].
  destruct (Z.eqb version TokenVersion1); split; reflexivity.
Qed.

Lemma unlisted_api_is_not_refused_witness :
  scopes Demo.env 2%Z = []
  /\ resource Demo.env 2%Z = ""
  /\ exists conf,
       NewClientSecretAuthorizer Demo.env 2%Z TokenVersion1 "t" "c" "s"
       = ((Some (ClientCredentialsSource conf microsoft.AuthTypeSecret), None),
          [CallTokenSource microsoft.AuthTypeSecret])
       /\ microsoft.Scopes conf = []
       /\ microsoft.Resource conf = "".
Proof.
  apply (unlisted_api_is_not_refused Demo.env 2%Z TokenVersion1 "t" "c" "s");
    discriminate.
Defined.

(** X4.  A token version other than the two constants is not refused
    either: the secret constructor asks at the version 1 URL but attaches
    no resource. *)
Theorem unlisted_version_has_no_resource
    (env : environments.Environment) (api : Api) (version : TokenVersion)
    (tenantId clientId clientSecret : string) :
  version <> TokenVersion1 -> version <> TokenVersion2 ->
  exists conf,
    NewClientSecretAuthorizer env api version tenantId clientId clientSecret
    = ((Some (ClientCredentialsSource conf microsoft.AuthTypeSecret), None),
       [CallTokenSource microsoft.AuthTypeSecret])
    /\ microsoft.TokenURL conf
       = environments.AzureADEndpoint env ++ "/" ++ tenantSegment tenantId
         ++ "/oauth2/token"
    /\ microsoft.Resource conf = "".
Proof.
  intros H1 H2. unfold NewClientSecretAuthorizer.
  destruct (Z.eqb_spec version TokenVersion1); [contradiction |].
  eexists. split; [reflexivity |]. simpl. split; [| reflexivity].
  rewrite endpoint_segment. unfold tokenPath.
  destruct (Z.eqb_spec version TokenVersion2); [contradiction | reflexivity].
Qed.

Lemma unlisted_version_has_no_resource_witness :
  exists conf,
    NewClientSecretAuthorizer Demo.env MsGraph 2%Z "t" "c" "s"
    = ((Some (ClientCredentialsSource conf microsoft.AuthTypeSecret), None),
       [CallTokenSource microsoft.AuthTypeSecret])
    /\ microsoft.TokenURL conf
       = environments.AzureADEndpoint Demo.env ++ "/" ++ tenantSegment "t"
         ++ "/oauth2/token"
    /\ microsoft.Resource conf = "".
Proof.
  apply (unlisted_version_has_no_resource Demo.env MsGraph 2%Z "t" "c" "s");
    discriminate.
Defined.

(** ** What the constructors return *)

Lemma secretSpecified_true_iff (c : Config) :
  secretSpecified c = true <->
  EnableClientSecretAuth c = true /\ blank (TenantID c) = false
  /\ blank (ClientID c) = false /\ blank (ClientSecret c) = false.
Proof.
  unfold secretSpecified, blank.
  repeat rewrite andb_true_iff. repeat rewrite negb_false_iff. tauto.
Qed.

Lemma guards_false_of_blank_identity (c : Config) :
  blank (TenantID c) = true \/ blank (ClientID c) = true ->
  certSpecified c = false /\ secretSpecified c = false.
Proof.
  unfold certSpecified, secretSpecified, blank.
  repeat rewrite negb_true_iff.
  intros [H | H]; rewrite H; repeat rewrite andb_false_r; auto.
Qed.

Lemma certificate_cases (X : Externals)
    env api version tenantId clientId pfxPath pfxPass :
  (exists err,
     value (NewClientCertificateAuthorizer X env api version
              tenantId clientId pfxPath pfxPass) = (None, Some err))
  \/ (exists conf,
        value (NewClientCertificateAuthorizer X env api version
                 tenantId clientId pfxPath pfxPass)
        = (Some (ClientCredentialsSource conf microsoft.AuthTypeAssertion),
           None)
        /\ microsoft.ClientSecret conf = "").
Proof.
  unfold NewClientCertificateAuthorizer, bind, emit, value. simpl.
  destruct (ReadFile X pfxPath) as [pfx | e]; simpl;
    [| left; eexists; reflexivity].
  destruct (pkcs12_Decode X pfx pfxPass) as [[[k | d | s] cert] | e];
    simpl; try (left; eexists; reflexivity).
  right. eexists. split; [reflexivity |].
  destruct (Z.eqb version TokenVersion1); reflexivity.
Qed.

Lemma azureCli_cases (X : Externals) (api : Api) (tenantId : string) :
  match NewAzureCliConfig X api tenantId with
  | Err err =>
      NewAzureCliAuthorizer X api tenantId
      = ((None, Some err), [CallNewAzureCliConfig api tenantId])
  | Ok conf =>
      NewAzureCliAuthorizer X api tenantId
      = ((Some (AzureCliSource conf), None),
         [CallNewAzureCliConfig api tenantId; CallCliTokenSource])
  end.
Proof.
  unfold NewAzureCliAuthorizer, bind, emit. simpl.
  destruct (NewAzureCliConfig X api tenantId); reflexivity.
Qed.

(** ** The secret and CLI blocks of the selector *)

Section Fallbacks.

Variable X : Externals.

(** X5.  When the certificate block is not entered and the secret block
    is, [NewAuthorizer] always succeeds with the secret authorizer: its
    only call builds the token source, the Azure CLI is not probed, and the
    token URL carries the tenant id as configured, untrimmed and never
    replaced by "common". *)
Theorem secret_before_cli (c : Config) (api : Api) :
  certSpecified c = false ->
  secretSpecified c = true ->
  exists conf,
    NewAuthorizer X c api
    = ((Some (ClientCredentialsSource conf microsoft.AuthTypeSecret), None),
       [CallTokenSource microsoft.AuthTypeSecret])
    /\ microsoft.ClientID conf = ClientID c
    /\ microsoft.ClientSecret conf = ClientSecret c
    /\ microsoft.Scopes conf = scopes (Environment c) api
    /\ microsoft.TokenURL conf
       = environments.AzureADEndpoint (Environment c) ++ "/" ++ TenantID c
         ++ tokenPath (Version c).
Proof.
  intros Hc Hs.
  assert (Ht : tenantSegment (TenantID c) = TenantID c).
  { apply secretSpecified_true_iff in Hs. destruct Hs as (_ & Hb & _).
    apply blank_false_nonempty in Hb. unfold tenantSegment.
    destruct (String.eqb_spec (TenantID c) ""); [contradiction | reflexivity]. }
  unfold NewAuthorizer, fromClientSecret. rewrite Hc, Hs, attempt_skip.
  unfold NewClientSecretAuthorizer.
  eexists. split; [reflexivity |].
  destruct (Z.eqb (Version c) TokenVersion1); simpl;
    rewrite endpoint_segment, Ht; auto.
Qed.

(** X6.  When neither the certificate nor the secret block is entered and
    the CLI is enabled, [NewAuthorizer] probes the CLI with the API and the
    tenant id as configured (blank or not): a probe error comes back
    wrapped as an Azure CLI configuration error and no token source is
    built; otherwise the CLI authorizer holds the configuration the probe
    returned. *)
Theorem azure_cli_is_the_fallback (c : Config) (api : Api) :
  certSpecified c = false ->
  secretSpecified c = false ->
  EnableAzureCliToken c = true ->
  match NewAzureCliConfig X api (TenantID c) with
  | Err err =>
      NewAuthorizer X c api
      = ((None, Some (azureCliPrefix ++ err)),
         [CallNewAzureCliConfig api (TenantID c)])
  | Ok conf =>
      NewAuthorizer X c api
      = ((Some (AzureCliSource conf), None),
         [CallNewAzureCliConfig api (TenantID c); CallCliTokenSource])
  end.
Proof.
  intros Hc Hs Hz.
  unfold NewAuthorizer, fromClientSecret, fromAzureCli.
  rewrite Hc, Hs, Hz, !attempt_skip.
  pose proof (azureCli_cases X api (TenantID c)) as H.
  destruct (NewAzureCliConfig X api (TenantID c)) as [conf | err];
    rewrite H; reflexivity.
Qed.

(** X7.  A blank tenant id or client id rules out both credential
    methods whatever their flags and material: [NewAuthorizer] is its
    Azure CLI block alone, and every call it makes is a CLI call. *)
Theorem blank_identity_leaves_cli (c : Config) (api : Api) :
  blank (TenantID c) = true \/ blank (ClientID c) = true ->
  NewAuthorizer X c api = fromAzureCli X c api
  /\ Forall (fun e => eventMethod e = AzureCli)
            (trace (NewAuthorizer X c api)).
Proof.
  intro Hb. destruct (guards_false_of_blank_identity c Hb) as [Hc Hs].
  assert (Heq : NewAuthorizer X c api = fromAzureCli X c api).
  { unfold NewAuthorizer, fromClientSecret. now rewrite Hc, Hs, !attempt_skip. }
  split; [exact Heq |]. rewrite Heq. apply fromAzureCli_trace.
Qed.

(** X8.  The environment and the token version are ignored when no
    credential method is used: with the certificate and secret blocks
    not entered, changing both leaves result and calls unchanged. *)
Theorem cli_ignores_environment_and_version
    (c : Config) (api : Api)
    (env : environments.Environment) (version : TokenVersion) :
  certSpecified c = false ->
  secretSpecified c = false ->
  NewAuthorizer X (Cases.withTarget env version c) api = NewAuthorizer X c api.
Proof.
  intros Hc Hs.
  unfold NewAuthorizer, fromClientSecret.
  change (certSpecified (Cases.withTarget env version c))
    with (certSpecified c).
  change (secretSpecified (Cases.withTarget env version c))
    with (secretSpecified c).
  rewrite Hc, Hs, !attempt_skip. reflexivity.
Qed.

(** X9.  [NewAuthorizer] returns an authorizer exactly when it returns no
    error: there is no result with both [nil]. *)
Theorem authorizer_iff_no_error (c : Config) (api : Api) :
  fst (value (NewAuthorizer X c api)) <> None
  <-> snd (value (NewAuthorizer X c api)) = None.
Proof.
  pose proof (NewAuthorizer_exclusive X c api) as Hex.
  destruct (value (NewAuthorizer X c api)) as [[a|] [e|]];
    simpl in *; try discriminate Hex; split; congruence.
Qed.

(** X10.  The authorizer that [NewAuthorizer] returns belongs to the first
    method whose block is entered, and holds that method's material only:
    an assertion source means the certificate block was entered and
    carries no client secret; a secret source means the certificate block
    was not entered and carries neither key nor certificate; a CLI source
    means that neither credential block was entered and the CLI is
    enabled. *)
Theorem returned_method_is_enabled
    (c : Config) (api : Api) (ts : TokenSource) (err : error) :
  value (NewAuthorizer X c api) = (Some ts, err) ->
  match ts with
  | ClientCredentialsSource conf microsoft.AuthTypeAssertion =>
      certSpecified c = true /\ microsoft.ClientSecret conf = ""
  | ClientCredentialsSource conf microsoft.AuthTypeSecret =>
      certSpecified c = false /\ secretSpecified c = true
      /\ microsoft.PrivateKey conf = "" /\ microsoft.Certificate conf = ""
  | AzureCliSource _ =>
      certSpecified c = false /\ secretSpecified c = false
      /\ EnableAzureCliToken c = true
  end.
Proof.
  unfold NewAuthorizer.
  destruct (certSpecified c) eqn:Hc.
  - destruct (certificate_cases X (Environment c) api (Version c)
                (TenantID c) (ClientID c) (ClientCertPath c)
                (ClientCertPassword c)) as [[e Hv] | [conf [Hv Hsec]]].
    + rewrite (attempt_error _ _ _ None e Hv). discriminate.
    + rewrite (attempt_success _ _ _ _ Hv). unfold value. simpl.
      intro H. injection H as <- _. auto.
  - rewrite attempt_skip. unfold fromClientSecret.
    destruct (secretSpecified c) eqn:Hs.
    + unfold NewClientSecretAuthorizer, attempt, bind, emit, value. simpl.
      intro H. injection H as <- _.
      destruct (Z.eqb (Version c) TokenVersion1); simpl; auto.
    + rewrite attempt_skip. unfold fromAzureCli.
      destruct (EnableAzureCliToken c) eqn:Hz; [| discriminate].
      pose proof (azureCli_cases X api (TenantID c)) as H.
      destruct (NewAzureCliConfig X api (TenantID c)) as [conf | e];
        rewrite H; unfold attempt, bind, value; simpl.
      * intro H'. injection H' as <- _. auto.
      * discriminate.
Qed.

(** X11.  Every error of [NewAuthorizer] tells the stage it comes from:
    it starts with the certificate wrapper and the certificate block was
    entered, or it starts with the Azure CLI wrapper and the CLI was the
    method tried, or it is the final message and no block was entered. *)
Theorem error_names_its_stage (c : Config) (api : Api) (msg : string) :
  snd (value (NewAuthorizer X c api)) = Some msg ->
  (prefix certificatePrefix msg = true /\ certSpecified c = true)
  \/ (prefix azureCliPrefix msg = true
      /\ certSpecified c = false /\ secretSpecified c = false
      /\ EnableAzureCliToken c = true)
  \/ (msg = noAuthorizerMessage
      /\ certSpecified c = false /\ secretSpecified c = false
      /\ EnableAzureCliToken c = false).
Proof.
  unfold NewAuthorizer.
  destruct (certSpecified c) eqn:Hc.
  - destruct (certificate_cases X (Environment c) api (Version c)
                (TenantID c) (ClientID c) (ClientCertPath c)
                (ClientCertPassword c)) as [[e Hv] | [conf [Hv _]]].
    + rewrite (attempt_error _ _ _ None e Hv). unfold value. simpl.
      intro H. injection H as <-. left. split; [| reflexivity].
      apply (prefix_append certificatePrefix e).
    + rewrite (attempt_success _ _ _ _ Hv). discriminate.
  - rewrite attempt_skip. unfold fromClientSecret.
    destruct (secretSpecified c) eqn:Hs.
    + unfold NewClientSecretAuthorizer, attempt, bind, emit, value. simpl.
      discriminate.
    + rewrite attempt_skip. unfold fromAzureCli.
      destruct (EnableAzureCliToken c) eqn:Hz.
      * pose proof (azureCli_cases X api (TenantID c)) as H.
        destruct (NewAzureCliConfig X api (TenantID c)) as [conf | e];
          rewrite H; unfold attempt, bind, value; simpl.
        -- discriminate.
        -- intro H'. injection H' as <-. right. left.
           split; [apply (prefix_append azureCliPrefix e) | auto].
      * rewrite attempt_skip. unfold ret, value. simpl.
        intro H. injection H as <-. right. right. auto.
Qed.

(** X12.  A bundle that cannot be read ends the certificate constructor
    at once: the error quotes the path and carries the reader's message,
    the decoder is never called, and the password plays no part. *)
Theorem unreadable_bundle_is_not_decoded
    (env : environments.Environment) (api : Api) (version : TokenVersion)
    (tenantId clientId pfxPath pfxPass err : string) :
  ReadFile X pfxPath = Err err ->
  NewClientCertificateAuthorizer X env api version
    tenantId clientId pfxPath pfxPass
  = ((None, Some ("could not read pkcs12 store at " ++ Quote X pfxPath
                  ++ ": " ++ err)),
     [CallReadFile pfxPath])
  /\ forall pass',
       NewClientCertificateAuthorizer X env api version
         tenantId clientId pfxPath pass'
       = NewClientCertificateAuthorizer X env api version
           tenantId clientId pfxPath pfxPass.
Proof.
  intro Hread.
  unfold NewClientCertificateAuthorizer, bind, emit. simpl.
  rewrite Hread. split; [reflexivity | intro; reflexivity].
Qed.

End Fallbacks.

(** X14.  One call of [NewAuthorizer] works for one method only: all the
    calls it makes outside the file belong to the same method. *)
Theorem calls_belong_to_one_method (X : Externals) (c : Config) (api : Api) :
  exists m : Method,
    Forall (fun e => eventMethod e = m) (trace (NewAuthorizer X c api)).
Proof.
  unfold NewAuthorizer.
  destruct (certSpecified c) eqn:Hc.
  - exists Certificate.
    destruct (certificate_cases X (Environment c) api (Version c)
                (TenantID c) (ClientID c) (ClientCertPath c)
                (ClientCertPassword c)) as [[e Hv] | [conf [Hv _]]].
    + rewrite (attempt_error _ _ _ None e Hv). apply certificate_trace.
    + rewrite (attempt_success _ _ _ _ Hv). apply certificate_trace.
  - rewrite attempt_skip. unfold fromClientSecret.
    destruct (secretSpecified c) eqn:Hs.
    + exists Secret.
      destruct (secret_succeeds (Environment c) api (Version c)
                  (TenantID c) (ClientID c) (ClientSecret c)) as [conf ->].
      repeat constructor.
    + exists AzureCli. rewrite attempt_skip. apply fromAzureCli_trace.
Qed.

(** ** The further properties at concrete configurations *)

Lemma secret_before_cli_witness :
  EnableAzureCliToken Cases.secretConfig = true
  /\ exists conf,
       NewAuthorizer Demo.world Cases.secretConfig AadGraph
       = ((Some (ClientCredentialsSource conf microsoft.AuthTypeSecret), None),
          [CallTokenSource microsoft.AuthTypeSecret])
       /\ microsoft.ClientID conf = ClientID Cases.secretConfig
       /\ microsoft.ClientSecret conf = ClientSecret Cases.secretConfig
       /\ microsoft.Scopes conf = scopes (Environment Cases.secretConfig) AadGraph
       /\ microsoft.TokenURL conf
          = environments.AzureADEndpoint (Environment Cases.secretConfig)
            ++ "/" ++ TenantID Cases.secretConfig
            ++ tokenPath (Version Cases.secretConfig).
Proof.
  split; [reflexivity |].
  apply (secret_before_cli Demo.world Cases.secretConfig AadGraph);
    reflexivity.
Defined.

(** The CLI with a session, given a blank tenant, and without one. *)
Lemma azure_cli_is_the_fallback_witness :
  NewAuthorizer Demo.world (Demo.withTenant "  " Cases.cliConfig) MsGraph
  = ((Some (AzureCliSource {| CliApi := MsGraph; CliTenantID := "  " |}), None),
     [CallNewAzureCliConfig MsGraph "  "; CallCliTokenSource])
  /\ NewAuthorizer Cases.noCliSession Cases.cliConfig MsGraph
     = ((None, Some (azureCliPrefix ++ "please run az login to setup account")),
        [CallNewAzureCliConfig MsGraph "t"]).
Proof.
  split.
  - apply (azure_cli_is_the_fallback Demo.world
             (Demo.withTenant "  " Cases.cliConfig) MsGraph); reflexivity.
  - apply (azure_cli_is_the_fallback Cases.noCliSession Cases.cliConfig
             MsGraph); reflexivity.
Defined.

(** Every method enabled and given its material, but a client id of
    white space only. *)
Lemma blank_identity_leaves_cli_witness :
  NewAuthorizer Demo.world (Cases.withClient "   " Demo.config) MsGraph
  = fromAzureCli Demo.world (Cases.withClient "   " Demo.config) MsGraph
  /\ Forall (fun e => eventMethod e = AzureCli)
       (trace (NewAuthorizer Demo.world (Cases.withClient "   " Demo.config)
                 MsGraph)).
Proof.
  apply (blank_identity_leaves_cli Demo.world
           (Cases.withClient "   " Demo.config) MsGraph).
  right. reflexivity.
Defined.

Lemma cli_ignores_environment_and_version_witness :
  NewAuthorizer Demo.world
    (Cases.withTarget Cases.chinaEnv TokenVersion1 Cases.cliConfig) AadGraph
  = NewAuthorizer Demo.world Cases.cliConfig AadGraph.
Proof.
  apply (cli_ignores_environment_and_version Demo.world Cases.cliConfig
           AadGraph Cases.chinaEnv TokenVersion1); reflexivity.
Defined.

(** Secret and CLI enabled: the secret source comes back without key or
    certificate. *)
Lemma returned_method_is_enabled_witness :
  certSpecified Cases.secretConfig = false
  /\ secretSpecified Cases.secretConfig = true
  /\ microsoft.PrivateKey
       {| microsoft.ClientID := "c";
          microsoft.ClientSecret := "s";
          microsoft.PrivateKey := "";
          microsoft.Certificate := "";
          microsoft.Scopes := ["https://graph.example/.default"];
          microsoft.TokenURL :=
            "https://login.example/adtenant/t/oauth2/v2.0/token";
          microsoft.Resource := "" |} = ""
  /\ microsoft.Certificate
       {| microsoft.ClientID := "c";
          microsoft.ClientSecret := "s";
          microsoft.PrivateKey := "";
          microsoft.Certificate := "";
          microsoft.Scopes := ["https://graph.example/.default"];
          microsoft.TokenURL :=
            "https://login.example/adtenant/t/oauth2/v2.0/token";
          microsoft.Resource := "" |} = "".
Proof.
  apply (returned_method_is_enabled Demo.world Cases.secretConfig MsGraph
           (ClientCredentialsSource
              {| microsoft.ClientID := "c";
                 microsoft.ClientSecret := "s";
                 microsoft.PrivateKey := "";
                 microsoft.Certificate := "";
                 microsoft.Scopes := ["https://graph.example/.default"];
                 microsoft.TokenURL :=
                   "https://login.example/adtenant/t/oauth2/v2.0/token";
                 microsoft.Resource := "" |}
              microsoft.AuthTypeSecret)
           None).
  reflexivity.
Defined.

(** A missing bundle with every method enabled, and a CLI without
    session as the only method. *)
Lemma error_names_its_stage_witness :
  ((prefix certificatePrefix
      (certificatePrefix ++ "could not read pkcs12 store at "
       ++ Quote Demo.world "/etc/hamilton/none.pfx"
       ++ ": open /etc/hamilton/none.pfx: no such file or directory") = true
    /\ certSpecified (Demo.withCert "/etc/hamilton/none.pfx" "hunter2"
                        Demo.config) = true)
   \/ (prefix azureCliPrefix
         (certificatePrefix ++ "could not read pkcs12 store at "
          ++ Quote Demo.world "/etc/hamilton/none.pfx"
          ++ ": open /etc/hamilton/none.pfx: no such file or directory") = true
       /\ certSpecified (Demo.withCert "/etc/hamilton/none.pfx" "hunter2"
                           Demo.config) = false
       /\ secretSpecified (Demo.withCert "/etc/hamilton/none.pfx" "hunter2"
                             Demo.config) = false
       /\ EnableAzureCliToken (Demo.withCert "/etc/hamilton/none.pfx" "hunter2"
                                 Demo.config) = true)
   \/ (certificatePrefix ++ "could not read pkcs12 store at "
       ++ Quote Demo.world "/etc/hamilton/none.pfx"
       ++ ": open /etc/hamilton/none.pfx: no such file or directory"
       = noAuthorizerMessage
       /\ certSpecified (Demo.withCert "/etc/hamilton/none.pfx" "hunter2"
                           Demo.config) = false
       /\ secretSpecified (Demo.withCert "/etc/hamilton/none.pfx" "hunter2"
                             Demo.config) = false
       /\ EnableAzureCliToken (Demo.withCert "/etc/hamilton/none.pfx" "hunter2"
                                 Demo.config) = false)).
Proof.
  apply (error_names_its_stage Demo.world
           (Demo.withCert "/etc/hamilton/none.pfx" "hunter2" Demo.config)
           MsGraph).
  reflexivity.
Defined.

Lemma unreadable_bundle_is_not_decoded_witness :
  NewClientCertificateAuthorizer Demo.world Demo.env MsGraph TokenVersion2
    "t" "c" "/etc/hamilton/none.pfx" "hunter2"
  = ((None,
      Some ("could not read pkcs12 store at "
            ++ Quote Demo.world "/etc/hamilton/none.pfx"
            ++ ": " ++ "open /etc/hamilton/none.pfx: no such file or directory")),
     [CallReadFile "/etc/hamilton/none.pfx"]).
Proof.
  apply (proj1 (unreadable_bundle_is_not_decoded Demo.world Demo.env MsGraph
                  TokenVersion2 "t" "c" "/etc/hamilton/none.pfx" "hunter2"
                  "open /etc/hamilton/none.pfx: no such file or directory"
                  eq_refl)).
Defined.

(** X13.  The certificate password reaches the decoder and nothing
    else: replacing it by a password that the decoder treats alike leaves
    the result and the calls of [NewAuthorizer] unchanged, error messages
    included. *)
Theorem password_reaches_only_the_decoder
    (X : Externals) (c : Config) (api : Api) (pass' : string) :
  (forall pfx,
      pkcs12_Decode X pfx (ClientCertPassword c) = pkcs12_Decode X pfx pass') ->
  NewAuthorizer X (Demo.withCert (ClientCertPath c) pass' c) api
  = NewAuthorizer X c api.
Proof.
  intro H. unfold NewAuthorizer, fromClientSecret, fromAzureCli.
  change (certSpecified (Demo.withCert (ClientCertPath c) pass' c))
    with (certSpecified c).
  change (secretSpecified (Demo.withCert (ClientCertPath c) pass' c))
    with (secretSpecified c).
  simpl.
  now rewrite (password_only_through_decoder X (Environment c) api (Version c)
                 (TenantID c) (ClientID c) (ClientCertPath c)
                 (ClientCertPassword c) pass' H).
Qed.

(** Two wrong passwords are refused alike by the decoder. *)
Lemma password_reaches_only_the_decoder_witness :
  NewAuthorizer Demo.world
    (Demo.withCert "/etc/hamilton/client.pfx" "guess"
       (Demo.withCert "/etc/hamilton/client.pfx" "wrong" Demo.config))
    MsGraph
  = NewAuthorizer Demo.world
      (Demo.withCert "/etc/hamilton/client.pfx" "wrong" Demo.config) MsGraph.
Proof.
  apply (password_reaches_only_the_decoder Demo.world
           (Demo.withCert "/etc/hamilton/client.pfx" "wrong" Demo.config)
           MsGraph "guess").
  intro pfx. reflexivity.
Defined.
